(** * rom1504.github.io: routing and post resolution of the Lit front end

    A shallow embedding of the three custom elements that carry the
    behaviour of the site:

    - [MainPage]  ([main-page.js]):  [pages] and [render];
    - [BlogsPage] ([blogs-page.js]): [render];
    - [BlogPage]  ([blog-page.js]):  the constructor, [firstUpdated],
      [init] and [render].

    JavaScript strings are [string]; arrays are [list]; [undefined] is
    [None].  Code that writes to the console, reads [window.location],
    assigns to fields of [this] or awaits a dynamic [import()] runs in a
    small state-and-exception monad, [JS.M]. *)

From Stdlib Require Import String Ascii List Bool Arith Lia.
Import ListNotations.
Local Open Scope string_scope.
Local Open Scope list_scope.

(* ================================================================== *)
(** ** The fragment of JavaScript the elements use *)
(* ================================================================== *)

Module JS.

(** The line feed, ['\n']. *)
Definition LF : ascii := "010"%char.
Definition nl : string := String LF EmptyString.

Definition slash : ascii := "/"%char.

(** [s.split(sep)] for a separator of one character (the two call sites
    split on ['/'] and on ['\n']).  The result is never empty:
    [''.split('/')] is [['']]. *)
Fixpoint split (sep : ascii) (s : string) : list string :=
  match s with
  | EmptyString => [EmptyString]
  | String c s' =>
      if Ascii.eqb c sep then EmptyString :: split sep s'
      else match split sep s' with
           | [] => [String c EmptyString]
           | seg :: segs => String c seg :: segs
           end
  end.

(** [a.join(sep)]: the empty array joins to the empty string. *)
Fixpoint join (sep : string) (a : list string) : string :=
  match a with
  | [] => EmptyString
  | [x] => x
  | x :: xs => x ++ sep ++ join sep xs
  end.

(** [a.slice(start, end)] and [a.slice(start)] ([end_ = None]) for
    non-negative integer arguments: indices past the end are clamped, so
    the call never throws. *)
Definition slice {A : Type} (start : nat) (end_ : option nat) (a : list A)
  : list A :=
  match end_ with
  | Some e => firstn (e - start) (skipn start a)
  | None => skipn start a
  end.

(** [a[i]]: [undefined] past the end. *)
Definition index {A : Type} (a : list A) (i : nat) : option A :=
  nth_error a i.

(** [s.startsWith(p)]. *)
Definition startsWith (s p : string) : bool := String.prefix p s.

(** [a.includes(x)] on an array of strings; [x] is a string or
    [undefined], and [undefined] is equal to no string. *)
Definition includes (a : list string) (x : option string) : bool :=
  match x with
  | Some s => existsb (String.eqb s) a
  | None => false
  end.

(** What a rejected promise, or a [throw], carries.  The only operation
    of the elements that can fail is the dynamic [import()]. *)
Inductive Error : Type :=
| ModuleNotFound (specifier : string).

(** Completion of a piece of code: a value, or an exception (for an
    [async] function: the promise it returns is fulfilled or rejected). *)
Inductive Completion (A : Type) : Type :=
| Normal (a : A)
| Throw (e : Error).
Arguments Normal {A} a.
Arguments Throw {A} e.

(** State passing with exceptions over a store [S]. *)
Definition M (S A : Type) : Type := S -> Completion A * S.

Definition ret {S A : Type} (a : A) : M S A := fun s => (Normal a, s).

Definition bind {S A B : Type} (m : M S A) (k : A -> M S B) : M S B :=
  fun s =>
    match m s with
    | (Normal a, s') => k a s'
    | (Throw e, s') => (Throw e, s')
    end.

Definition gets {S A : Type} (f : S -> A) : M S A := fun s => (Normal (f s), s).

Definition modify {S : Type} (f : S -> S) : M S unit := fun s => (Normal tt, f s).

Definition throw {S A : Type} (e : Error) : M S A := fun s => (Throw e, s).

End JS.

Declare Scope js_scope.
Delimit Scope js_scope with js.
Notation "x <- m ;; k" := (JS.bind m (fun x => k))
  (at level 61, m at next level, right associativity) : js_scope.
Notation "m ;; k" := (JS.bind m (fun _ => k))
  (at level 61, right associativity) : js_scope.
Local Open Scope js_scope.

(* ================================================================== *)
(** ** Delimited segments, in the specification's words *)
(* ================================================================== *)

Module Segment.

(** The text of [s] before its first [sep]. *)
Fixpoint before (sep : ascii) (s : string) : string :=
  match s with
  | EmptyString => EmptyString
  | String c s' => if Ascii.eqb c sep then EmptyString else String c (before sep s')
  end.

(** The text of [s] after its first [sep], when there is one. *)
Fixpoint after (sep : ascii) (s : string) : option string :=
  match s with
  | EmptyString => None
  | String c s' => if Ascii.eqb c sep then Some s' else after sep s'
  end.

(** The segment number [n] (from 0) of [s] delimited by [sep]: skip [n]
    separators, then read up to the next one.  [None] when [s] has
    fewer than [n + 1] segments. *)
Fixpoint nth_segment (sep : ascii) (n : nat) (s : string) : option string :=
  match n with
  | O => Some (before sep s)
  | S n' =>
      match after sep s with
      | Some rest => nth_segment sep n' rest
      | None => None
      end
  end.

(** [s] holds no [sep]. *)
Definition free_of (sep : ascii) (s : string) : Prop := after sep s = None.

End Segment.

(* ================================================================== *)
(** ** [main-page.js] *)
(* ================================================================== *)

Module MainPage.

(** The two process-wide objects [pages] touches: it reads
    [window.location.pathname] and writes lines with [console.log]. *)
Record Window : Type := mkWindow {
  location_pathname : string;
  console : list string
}.

(** The templates [pages] can return; [blog_page b] is
    [<blog-page blog="${b}">], with [b] the value interpolated. *)
Inductive Page : Type :=
| home_page
| blogs_page
| blog_page (blog : option string).

Definition pathname : JS.M Window string := JS.gets location_pathname.

Definition console_log (line : string) : JS.M Window unit :=
  JS.modify (fun w => mkWindow (location_pathname w) (console w ++ [line])).

(** [pages ()]; [None] is the [undefined] a function returns when it
    runs off its end. *)
Definition pages : JS.M Window (option Page) :=
  p <- pathname ;;
  if p =? "/" then JS.ret (Some home_page)
  else
    p <- pathname ;;
    if p =? "/blog" then JS.ret (Some blogs_page)
    else
      p <- pathname ;;
      console_log p ;;
      p <- pathname ;;
      if JS.startsWith p "/blog" then
        console_log "blog" ;;
        p <- pathname ;;
        let blog := JS.index (JS.split JS.slash p) 2 in
        JS.ret (Some (blog_page blog))
      else JS.ret None.

(** The template of [render ()]: the fixed shell around the page slot. *)
Record Shell : Type := mkShell {
  heading : string;
  nav : list (string * string);
  page : option Page
}.

Definition render : JS.M Window Shell :=
  page <- pages ;;
  JS.ret (mkShell "Rom1504's home" [("/", "Home"); ("/blog", "Blog")] page).

(** What the page slot of the shell shows: Lit renders a child
    expression whose value is [undefined] as nothing. *)
Definition slot (shell : Shell) : list Page :=
  match page shell with
  | Some view => [view]
  | None => []
  end.

(** A window at location [p] whose console is still empty. *)
Definition at_location (p : string) : Window := mkWindow p [].

(** The specification's [selectView p]: what [pages ()] returns when the
    location is [p]. *)
Definition selectView (p : string) : JS.Completion (option Page) :=
  fst (pages (at_location p)).

(** What [pages ()] writes to the console when the location is [p]. *)
Definition logged (p : string) : list string :=
  console (snd (pages (at_location p))).

(** *** The dispatch table, in the specification's words *)

(** Rules 1 to 4 of the View Router, first match wins; the id of a Post
    View is the third segment of the path. *)
Definition selectView_table (p : string) : option Page :=
  if p =? "/" then Some home_page
  else if p =? "/blog" then Some blogs_page
  else if String.prefix "/blog" p then Some (blog_page (Segment.nth_segment JS.slash 2 p))
  else None.

(** [pages ()] at location [p] leaves the window as it found it. *)
Definition side_effect_free (p : string) : Prop :=
  forall out, snd (pages (mkWindow p out)) = mkWindow p out.

End MainPage.

(* ================================================================== *)
(** ** [blogs-page.js] *)
(* ================================================================== *)

Module BlogsPage.

(** One item of the list: [<a href="/blog/${blog}">${blog}</a><br>]. *)
Record Anchor : Type := mkAnchor {
  href : string;
  text : string
}.

(** [render ()], over the array exported by [blogs.js]. *)
Definition render (blogs : list string) : list Anchor :=
  map (fun blog => mkAnchor ("/blog/" ++ blog) blog) blogs.

End BlogsPage.

(* ================================================================== *)
(** ** [blog-page.js] *)
(* ================================================================== *)

Module BlogPage.

(** The reactive properties of the element. *)
Record Element : Type := mkElement {
  blog : option string;
  blogMd : string;
  headers : option (list string)
}.

(** The element together with what the host observes of it: the module
    specifiers handed to [import()], in order, and the promise rejections
    nobody handled. *)
Record Store : Type := mkStore {
  this : Element;
  imported : list string;
  unhandled : list JS.Error
}.

(** What [render ()] returns: a literal template, or markup passed
    through [unsafeHTML]. *)
Inductive Rendered : Type :=
| html (literal : string)
| unsafeHTML (markup : string).

(** [constructor ()]. *)
Definition constructor : Element := mkElement None "" None.

(** A template literal prints [undefined] by name. *)
Definition interpolate (v : option string) : string :=
  match v with
  | Some s => s
  | None => "undefined"
  end.

Definition set_blogMd (v : string) : JS.M Store unit :=
  JS.modify (fun s =>
    mkStore (mkElement (blog (this s)) v (headers (this s)))
            (imported s) (unhandled s)).

Definition set_headers (v : list string) : JS.M Store unit :=
  JS.modify (fun s =>
    mkStore (mkElement (blog (this s)) (blogMd (this s)) (Some v))
            (imported s) (unhandled s)).

Section Collaborators.

(** The array exported by [blogs.js]. *)
Variable blogs : list string.

(** The bundled assets: the default export of the module a specifier
    names, or nothing when loading it fails. *)
Variable assets : string -> option string.

(** showdown's [Converter.makeHtml]. *)
Variable makeHtml : string -> string.

(** [(await import(specifier)).default] *)
Definition import_default (specifier : string) : JS.M Store string :=
  JS.modify (fun s =>
    mkStore (this s) (imported s ++ [specifier]) (unhandled s)) ;;
  match assets specifier with
  | Some content => JS.ret content
  | None => JS.throw (JS.ModuleNotFound specifier)
  end.

(** [async init ()]: the completion is how the returned promise
    settles. *)
Definition init : JS.M Store unit :=
  b <- JS.gets (fun s => blog (this s)) ;;
  if negb (JS.includes blogs b) then
    set_blogMd "" ;;
    JS.ret tt
  else
    b <- JS.gets (fun s => blog (this s)) ;;
    content <- import_default ("./assets/" ++ interpolate b ++ ".md") ;;
    let lines := JS.split JS.LF content in
    let headers := JS.slice 0 (Some 3) lines in
    let body := JS.slice 3 None lines in
    set_blogMd (JS.join JS.nl body) ;;
    set_headers headers.

(** [firstUpdated ()] calls [this.init()] and drops the promise: a
    rejection has no handler and is reported by the host as unhandled. *)
Definition firstUpdated : JS.M Store unit :=
  fun s =>
    match init s with
    | (JS.Normal _, s') => (JS.Normal tt, s')
    | (JS.Throw e, s') =>
        (JS.Normal tt, mkStore (this s') (imported s') (unhandled s' ++ [e]))
    end.

(** [render ()]. *)
Definition render (e : Element) : Rendered :=
  if blogMd e =? "" then html "That page doesn't exist!"
  else unsafeHTML (makeHtml (blogMd e)).

(** A newly constructed element whose [blog] attribute is [id], before
    anything was imported. *)
Definition mounted (id : string) : Store :=
  mkStore (mkElement (Some id) (blogMd constructor) (headers constructor)) [] [].

(** The specification's [resolve id]: [init ()] on a new element for
    [id]. *)
Definition resolve (id : string) : JS.Completion unit * Store :=
  init (mounted id).

(** The specifier [init] imports for [id]. *)
Definition specifier_of (id : string) : string := "./assets/" ++ id ++ ".md".

End Collaborators.

End BlogPage.

(* ================================================================== *)
(** ** A small site, for running the elements *)
(* ================================================================== *)

Module Fixture.

(** Three registered posts. *)
Definition blogs : list string := ["a"; "b"; "c"].

(** Post [a]: three header lines, then the body. *)
Definition doc_a : string :=
  "title" ++ JS.nl ++ "date" ++ JS.nl ++ "tags" ++ JS.nl ++ "Hello **world**".

(** Post [c]: two lines only. *)
Definition doc_c : string := "title" ++ JS.nl ++ "date".

(** Post [b] is registered but has no asset. *)
Definition assets (specifier : string) : option string :=
  if specifier =? "./assets/a.md" then Some doc_a
  else if specifier =? "./assets/c.md" then Some doc_c
  else None.

(** A stand-in for the converter. *)
Definition makeHtml (md : string) : string := "<p>" ++ md ++ "</p>".

End Fixture.

(* ================================================================== *)
(** ** Counting separators, and a second small site *)
(* ================================================================== *)

Module Text.

(** How many times the character [c] occurs in [s]. *)
Fixpoint occurrences (c : ascii) (s : string) : nat :=
  match s with
  | EmptyString => 0
  | String d s' => (if Ascii.eqb d c then 1 else 0) + occurrences c s'
  end.

End Text.

Module Samples.

(** Two registered posts; the id of the second holds a slash. *)
Definition blogs : list string := ["d"; "2024/notes"].

(** Post [d]: three header lines, each ended by a line feed, and
    nothing after the third. *)
Definition doc_d : string :=
  "title" ++ JS.nl ++ "date" ++ JS.nl ++ "tags" ++ JS.nl.

Definition assets (specifier : string) : option string :=
  if specifier =? "./assets/d.md" then Some doc_d else None.

End Samples.

Module Notes.

(** One registered post. *)
Definition blogs : list string := ["notes"].

(** Its body has four lines, the second of them empty. *)
Definition body : string :=
  "# Notes" ++ JS.nl ++ "" ++ JS.nl ++ "first *point*" ++ JS.nl ++ "second".

(** Three header lines, then the body. *)
Definition doc : string :=
  "Notes" ++ JS.nl ++ "2024-01-05" ++ JS.nl ++ "misc" ++ JS.nl ++ body.

Definition assets (specifier : string) : option string :=
  if specifier =? "./assets/notes.md" then Some doc else None.

End Notes.

(* ================================================================== *)
(** ** Properties of [split], [join] and [slice] *)
(* ================================================================== *)

Module JSFacts.
Import Segment.

Lemma append_empty_r (s : string) : (s ++ "")%string = s.
Proof. induction s as [|c s IH]; simpl; [|rewrite IH]; reflexivity. Qed.

Lemma split_not_nil (sep : ascii) (s : string) : JS.split sep s <> [].
Proof.
  destruct s as [|c s]; simpl; [discriminate|].
  destruct (Ascii.eqb c sep); [discriminate|].
  destruct (JS.split sep s); discriminate.
Qed.

(** [split] reads the text up to the first separator and goes on with
    what follows it. *)
Lemma split_before_after (sep : ascii) (s : string) :
  JS.split sep s =
  before sep s :: match after sep s with
                  | Some rest => JS.split sep rest
                  | None => []
                  end.
Proof.
  induction s as [|c s IH]; simpl; [reflexivity|].
  destruct (Ascii.eqb c sep); [reflexivity|].
  rewrite IH. reflexivity.
Qed.

(** Indexing the array of [split] reads a segment. *)
Lemma index_split (sep : ascii) (n : nat) :
  forall s, JS.index (JS.split sep s) n = nth_segment sep n s.
Proof.
  unfold JS.index.
  induction n as [|n IH]; intro s; rewrite split_before_after; simpl.
  - reflexivity.
  - destruct (after sep s) as [rest|]; [apply IH|].
    destruct n; reflexivity.
Qed.

(** A separator after a text free of it ends the first segment. *)
Lemma split_app_sep (sep : ascii) (h rest : string) :
  free_of sep h ->
  JS.split sep (h ++ String sep rest) = h :: JS.split sep rest.
Proof.
  unfold free_of.
  induction h as [|c h IH]; simpl; intro Hfree.
  - rewrite Ascii.eqb_refl. reflexivity.
  - destruct (Ascii.eqb c sep); [discriminate|].
    rewrite (IH Hfree). reflexivity.
Qed.

Lemma after_app_sep (sep : ascii) (x rest : string) :
  free_of sep x -> after sep (x ++ String sep rest) = Some rest.
Proof.
  unfold free_of.
  induction x as [|c x IH]; simpl; intro Hfree.
  - rewrite Ascii.eqb_refl. reflexivity.
  - destruct (Ascii.eqb c sep); [discriminate | exact (IH Hfree)].
Qed.

Lemma before_app (sep : ascii) (h more : string) :
  free_of sep h ->
  more = "" \/ (exists m, more = String sep m) ->
  before sep (h ++ more) = h.
Proof.
  unfold free_of.
  induction h as [|c h IH]; simpl; intros Hfree Hmore.
  - destruct Hmore as [->|[m ->]]; simpl; [reflexivity|].
    rewrite Ascii.eqb_refl. reflexivity.
  - destruct (Ascii.eqb c sep); [discriminate|].
    rewrite (IH Hfree Hmore). reflexivity.
Qed.

Lemma split_free (sep : ascii) (h : string) :
  free_of sep h -> JS.split sep h = [h].
Proof.
  unfold free_of.
  induction h as [|c h IH]; simpl; intro Hfree; [reflexivity|].
  destruct (Ascii.eqb c sep); [discriminate|].
  rewrite (IH Hfree). reflexivity.
Qed.

(** Joining the lines of a text with the separator gives the text
    back. *)
Lemma join_split (sep : ascii) (s : string) :
  JS.join (String sep EmptyString) (JS.split sep s) = s.
Proof.
  induction s as [|c s IH]; simpl; [reflexivity|].
  destruct (Ascii.eqb_spec c sep) as [->|Hne].
  - pose proof (split_not_nil sep s) as Hnil.
    destruct (JS.split sep s) as [|seg segs] eqn:E; [contradiction|].
    simpl. simpl in IH. rewrite IH. reflexivity.
  - pose proof (split_not_nil sep s) as Hnil.
    destruct (JS.split sep s) as [|seg segs] eqn:E; [contradiction|].
    destruct segs as [|seg' segs]; simpl in *; rewrite <- IH; reflexivity.
Qed.

(** [join] and the library's [String.concat] agree. *)
Lemma join_concat (sep : string) (a : list string) :
  JS.join sep a = String.concat sep a.
Proof.
  induction a as [|x a IH]; [reflexivity|].
  destruct a as [|y a]; [reflexivity|].
  change (JS.join sep (x :: y :: a))
    with (x ++ sep ++ JS.join sep (y :: a))%string.
  rewrite IH. reflexivity.
Qed.

Lemma slice_head {A : Type} (n : nat) (a : list A) :
  JS.slice 0 (Some n) a = firstn n a.
Proof. unfold JS.slice. simpl. rewrite Nat.sub_0_r. reflexivity. Qed.

Lemma slice_tail {A : Type} (n : nat) (a : list A) :
  JS.slice n None a = skipn n a.
Proof. reflexivity. Qed.

(** The two slices of [init] cut the array in two. *)
Lemma slice_partition {A : Type} (n : nat) (a : list A) :
  JS.slice 0 (Some n) a ++ JS.slice n None a = a.
Proof. rewrite slice_head, slice_tail. apply firstn_skipn. Qed.

Lemma includes_In (a : list string) (id : string) :
  JS.includes a (Some id) = true <-> In id a.
Proof.
  simpl. rewrite existsb_exists. split.
  - intros [x [Hin Heq]]. apply String.eqb_eq in Heq. subst. exact Hin.
  - intro Hin. exists id. split; [exact Hin | apply String.eqb_refl].
Qed.

Lemma includes_not_In (a : list string) (id : string) :
  JS.includes a (Some id) = false <-> ~ In id a.
Proof.
  rewrite <- includes_In. destruct (JS.includes a (Some id)); split; intro H;
    try reflexivity; try discriminate; try (intro; discriminate).
  exfalso. apply H. reflexivity.
Qed.

End JSFacts.

(* ================================================================== *)
(** ** The View Router: [MainPage.pages] *)
(* ================================================================== *)

Module Router.
Import MainPage.

(** Runs the monadic steps of [pages] as far as the next test. *)
Ltac run_pages :=
  unfold pages, pathname, console_log, JS.bind, JS.gets, JS.modify, JS.ret;
  cbn [location_pathname console fst snd].

(** What [pages ()] appends to the console at location [p]. *)
Lemma logged_eq (p : string) :
  logged p =
  if p =? "/" then []
  else if p =? "/blog" then []
  else p :: (if JS.startsWith p "/blog" then ["blog"] else []).
Proof.
  unfold logged, at_location. run_pages.
  destruct (p =? "/"); run_pages; [reflexivity|].
  destruct (p =? "/blog"); run_pages; [reflexivity|].
  destruct (JS.startsWith p "/blog"); reflexivity.
Qed.

(** One run of [pages ()], from any window: the value is [selectView] of
    the location, the location stays, the console grows by [logged]. *)
Lemma pages_run (w : Window) :
  pages w =
  (selectView (location_pathname w),
   mkWindow (location_pathname w)
            (console w ++ logged (location_pathname w))).
Proof.
  destruct w as [p out].
  unfold selectView, logged, at_location. run_pages.
  destruct (p =? "/"); run_pages; [now rewrite app_nil_r|].
  destruct (p =? "/blog"); run_pages; [now rewrite app_nil_r|].
  destruct (JS.startsWith p "/blog"); run_pages;
    rewrite <- ?app_assoc; reflexivity.
Qed.

(** [pages ()] follows the table of the specification at every path. *)
Lemma selectView_table_eq (p : string) :
  selectView p = JS.Normal (selectView_table p).
Proof.
  unfold selectView, selectView_table, at_location. run_pages.
  destruct (p =? "/"); run_pages; [reflexivity|].
  destruct (p =? "/blog"); run_pages; [reflexivity|].
  unfold JS.startsWith.
  destruct (String.prefix "/blog" p); run_pages; [|reflexivity].
  rewrite JSFacts.index_split. reflexivity.
Qed.

(** Rule 3 with the id spelled out: in [/blog<x>/<id>] and
    [/blog<x>/<id>/<more>] the id is [<id>]. *)
Lemma selectView_post (x id more : string) :
  Segment.free_of JS.slash x ->
  Segment.free_of JS.slash id ->
  more = "" \/ (exists m, more = String JS.slash m) ->
  selectView ("/blog" ++ x ++ "/" ++ id ++ more)
  = JS.Normal (Some (blog_page (Some id))).
Proof.
  intros Hx Hid Hmore.
  rewrite selectView_table_eq. unfold selectView_table.
  pose proof (JSFacts.after_app_sep JS.slash x (id ++ more)%string Hx) as Hafter.
  pose proof (JSFacts.before_app JS.slash id more Hid Hmore) as Hbefore.
  change ("/blog" ++ x ++ "/" ++ id ++ more)%string
    with (String "/" (String "b" (String "l" (String "o" (String "g"
           (x ++ String JS.slash (id ++ more)))))))%string.
  remember (x ++ String JS.slash (id ++ more))%string as tl eqn:Etl.
  set (p := String "/" (String "b" (String "l" (String "o" (String "g" tl))))).
  assert (E1 : (p =? "/") = false) by reflexivity.
  assert (E2 : (p =? "/blog") = false).
  { subst p. destruct tl; [discriminate Hafter | reflexivity]. }
  assert (E3 : String.prefix "/blog" p = true).
  { subst p. simpl. destruct tl; reflexivity. }
  rewrite E1, E2, E3. subst p. cbn. rewrite Hafter, Hbefore. reflexivity.
Qed.

(** A path that starts with ["/blog"] and has no third segment still
    selects the post page; [split('/')[2]] is then [undefined].  A
    trailing slash gives the empty id. *)
Lemma selectView_short_paths :
  selectView "/blogx" = JS.Normal (Some (blog_page None)) /\
  selectView "/blog/" = JS.Normal (Some (blog_page (Some ""))).
Proof. split; reflexivity. Qed.

(** C1.  [selectView] follows the first-match dispatch table at every
    path: ["/"] gives the home page, ["/blog"] the index, and every other
    path that starts with ["/blog"] a post page whose id is the third
    ["/"]-delimited segment of the path ([undefined] when the path has
    fewer than three segments), whatever follows that segment;
    ["/blog/foo"] and ["/blog/foo/bar"] both give the id ["foo"]. *)
Theorem selectView_first_match :
  (forall p, selectView p = JS.Normal (selectView_table p)) /\
  selectView "/" = JS.Normal (Some home_page) /\
  selectView "/blog" = JS.Normal (Some blogs_page) /\
  (forall p, JS.startsWith p "/blog" = true -> p <> "/blog" ->
     selectView p
     = JS.Normal (Some (blog_page (Segment.nth_segment JS.slash 2 p)))) /\
  (forall id more, Segment.free_of JS.slash id ->
     selectView ("/blog/" ++ id) = JS.Normal (Some (blog_page (Some id))) /\
     selectView ("/blog/" ++ id ++ "/" ++ more)
     = JS.Normal (Some (blog_page (Some id)))) /\
  selectView "/blog/foo" = JS.Normal (Some (blog_page (Some "foo"))) /\
  selectView "/blog/foo/bar" = JS.Normal (Some (blog_page (Some "foo"))).
Proof.
  split; [exact selectView_table_eq|].
  split; [reflexivity|].
  split; [reflexivity|].
  split.
  { intros p Hpre Hne. rewrite selectView_table_eq. unfold selectView_table.
    unfold JS.startsWith in Hpre. rewrite Hpre.
    destruct (String.eqb_spec p "/") as [->|_]; [discriminate Hpre|].
    destruct (String.eqb_spec p "/blog") as [->|_]; [contradiction|].
    reflexivity. }
  split.
  { intros id more Hid. split.
    - pose proof (selectView_post "" id "" eq_refl Hid (or_introl eq_refl)) as H.
      simpl in H. rewrite JSFacts.append_empty_r in H.
      exact H.
    - exact (selectView_post "" id (String JS.slash more) eq_refl Hid
               (or_intror (ex_intro _ more eq_refl))). }
  split; reflexivity.
Qed.

(** The rule for posts at ["/blog/foo/bar"], and the id ["foo"]. *)
Lemma selectView_first_match_witness :
  selectView "/blog/foo/bar" = JS.Normal (Some (blog_page (Some "foo"))) /\
  selectView "/blog/foo" = JS.Normal (Some (blog_page (Some "foo"))).
Proof.
  split.
  - apply (proj1 (proj2 (proj2 (proj2 selectView_first_match)))
             "/blog/foo/bar"); [reflexivity | discriminate].
  - apply (proj1 (proj2 (proj2 (proj2 (proj2 selectView_first_match))))
             "foo" ""). reflexivity.
Defined.

(** C7.  A path that matches none of the three rules (it is not ["/"],
    not ["/blog"], and does not start with ["/blog"]) selects no view:
    [pages ()] returns [undefined], and the page slot of the shell that
    [render ()] builds shows nothing. *)
Theorem selectView_no_match (p : string) (out : list string) :
  p <> "/" -> p <> "/blog" -> JS.startsWith p "/blog" = false ->
  selectView p = JS.Normal None /\
  fst (pages (mkWindow p out)) = JS.Normal None /\
  exists shell,
    fst (render (mkWindow p out)) = JS.Normal shell /\
    page shell = None /\ slot shell = [].
Proof.
  intros Hhome Hindex Hpost.
  assert (Hsel : selectView p = JS.Normal None).
  { rewrite selectView_table_eq. unfold selectView_table.
    apply String.eqb_neq in Hhome, Hindex. unfold JS.startsWith in Hpost.
    rewrite Hhome, Hindex, Hpost. reflexivity. }
  assert (Hrun : fst (pages (mkWindow p out)) = JS.Normal None).
  { rewrite pages_run. exact Hsel. }
  split; [exact Hsel|]. split; [exact Hrun|].
  unfold render, JS.bind. rewrite pages_run. cbn [location_pathname].
  rewrite Hsel. cbn. eexists. split; [reflexivity|]. split; reflexivity.
Qed.

Lemma selectView_no_match_witness :
  selectView "/unknown" = JS.Normal None /\
  fst (pages (mkWindow "/unknown" ["earlier line"])) = JS.Normal None /\
  exists shell,
    fst (render (mkWindow "/unknown" ["earlier line"])) = JS.Normal shell /\
    page shell = None /\ slot shell = [].
Proof.
  apply (selectView_no_match "/unknown" ["earlier line"]);
    [discriminate | discriminate | reflexivity].
Defined.

(** No view is selected only when no rule matches. *)
Lemma selectView_none_inv (p : string) :
  selectView p = JS.Normal None ->
  p <> "/" /\ p <> "/blog" /\ JS.startsWith p "/blog" = false.
Proof.
  rewrite selectView_table_eq. unfold selectView_table, JS.startsWith.
  destruct (String.eqb_spec p "/"); [discriminate|].
  destruct (String.eqb_spec p "/blog"); [discriminate|].
  destruct (String.prefix "/blog" p); [discriminate|].
  intros _. repeat split; assumption.
Qed.

(** C8, as stated, fails: at ["/blog/foo"] an evaluation of [pages ()]
    is not free of side effects, it writes two lines to the console. *)
Lemma pages_console_counterexample :
  ~ side_effect_free "/blog/foo" /\
  logged "/blog/foo" = ["/blog/foo"; "blog"].
Proof.
  split; [|reflexivity].
  intro Hpure. specialize (Hpure []). discriminate Hpure.
Qed.

(** C8, amended.  [pages ()] is deterministic and depends on the
    location alone: two windows at the same location, whatever their
    consoles hold, get the same view, and so does a second evaluation
    after the first; it never throws and never changes the location.
    Its one side effect is on the console: at a location other than
    ["/"] and ["/blog"] it appends the path, then ["blog"] when the path
    starts with ["/blog"]; at ["/"] and ["/blog"] it has no effect. *)
Theorem pages_deterministic (w1 w2 : Window) :
  location_pathname w1 = location_pathname w2 ->
  fst (pages w1) = fst (pages w2) /\
  fst (pages (snd (pages w1))) = fst (pages w1) /\
  (exists view, fst (pages w1) = JS.Normal view) /\
  location_pathname (snd (pages w1)) = location_pathname w1 /\
  console (snd (pages w1))
  = console w1 ++
    (if location_pathname w1 =? "/" then []
     else if location_pathname w1 =? "/blog" then []
     else location_pathname w1
          :: (if JS.startsWith (location_pathname w1) "/blog"
              then ["blog"] else [])) /\
  (side_effect_free "/" /\ side_effect_free "/blog").
Proof.
  intro Hloc.
  rewrite !pages_run. cbn [fst snd location_pathname console].
  split; [now rewrite Hloc|].
  split; [reflexivity|].
  split; [rewrite selectView_table_eq; eexists; reflexivity|].
  split; [reflexivity|].
  split; [now rewrite logged_eq|].
  split; intro out; reflexivity.
Qed.

Lemma pages_deterministic_witness :
  let w1 := mkWindow "/blog/foo" [] in
  let w2 := mkWindow "/blog/foo" ["/blog/foo"; "blog"] in
  fst (pages w1) = fst (pages w2) /\
  console (snd (pages w1)) = ["/blog/foo"; "blog"].
Proof.
  intros w1 w2.
  destruct (pages_deterministic w1 w2 eq_refl) as (Hsame & _ & _ & _ & Hlog & _).
  split; [exact Hsame | exact Hlog].
Defined.

End Router.

(* ================================================================== *)
(** ** The Index View: [BlogsPage.render] *)
(* ================================================================== *)

Module Index.
Import BlogsPage.

Lemma render_nth (blogs : list string) (i : nat) (id : string) :
  nth_error blogs i = Some id ->
  nth_error (render blogs) i = Some (mkAnchor ("/blog/" ++ id) id).
Proof.
  intro Hnth. unfold render.
  rewrite nth_error_map, Hnth. reflexivity.
Qed.

(** The anchors that point to [/blog/<id>] are as many as the entries
    [id] of the registry. *)
Lemma render_count (blogs : list string) (id : string) :
  length (filter (fun a => href a =? "/blog/" ++ id) (render blogs))
  = count_occ string_dec blogs id.
Proof.
  unfold render.
  induction blogs as [|b blogs IH]; [reflexivity|].
  cbn [map filter href count_occ].
  change ("/blog/" ++ b =? "/blog/" ++ id) with (b =? id).
  destruct (string_dec b id) as [->|Hne].
  - rewrite String.eqb_refl. cbn [length]. now rewrite IH.
  - apply String.eqb_neq in Hne. rewrite Hne. exact IH.
Qed.

(** C9.  The index renders one anchor per entry of the registry, in the
    order of the registry: the anchor at position [i] points to
    [/blog/<id>] for the id at position [i] and shows that id; an id the
    registry holds once has exactly one anchor. *)
Theorem index_one_link_per_id (blogs : list string) :
  length (render blogs) = length blogs /\
  map href (render blogs) = map (String.append "/blog/") blogs /\
  map text (render blogs) = blogs /\
  (forall i id, nth_error blogs i = Some id ->
     nth_error (render blogs) i = Some (mkAnchor ("/blog/" ++ id) id)) /\
  (forall id, NoDup blogs -> In id blogs ->
     length (filter (fun a => href a =? "/blog/" ++ id) (render blogs)) = 1).
Proof.
  split; [apply length_map|].
  split; [unfold render; rewrite map_map; reflexivity|].
  split; [unfold render; rewrite map_map; apply map_id|].
  split; [exact (render_nth blogs)|].
  intros id Hnodup Hin. rewrite render_count.
  apply (proj1 (NoDup_count_occ' string_dec blogs) Hnodup id Hin).
Qed.

Lemma index_one_link_per_id_witness :
  nth_error (render Fixture.blogs) 1 = Some (mkAnchor "/blog/b" "b") /\
  length (filter (fun a => href a =? "/blog/b") (render Fixture.blogs)) = 1.
Proof.
  destruct (index_one_link_per_id Fixture.blogs) as (_ & _ & _ & Hnth & Hone).
  split.
  - apply (Hnth 1 "b"). reflexivity.
  - apply (Hone "b").
    + repeat constructor; simpl; intuition discriminate.
    + simpl. auto.
Defined.

End Index.

(* ================================================================== *)
(** ** The Content Resolver and the Post View: [BlogPage] *)
(* ================================================================== *)

Module Resolver.
Import BlogPage.

(** Runs the monadic steps of [init] as far as the next test. *)
Ltac run_init :=
  unfold init, import_default, set_blogMd, set_headers,
    JS.bind, JS.gets, JS.modify, JS.ret, JS.throw;
  cbn [this blog blogMd headers imported unhandled fst snd interpolate].

Section Collaborators.

Variable blogs : list string.
Variable assets : string -> option string.
Variable makeHtml : string -> string.

(** *** The three ways [init] can go, from any store *)

Lemma init_unregistered (s : Store) :
  JS.includes blogs (blog (this s)) = false ->
  init blogs assets s
  = (JS.Normal tt,
     mkStore (mkElement (blog (this s)) "" (headers (this s)))
             (imported s) (unhandled s)).
Proof.
  intro Hinc. run_init. rewrite Hinc. reflexivity.
Qed.

Lemma init_loaded (s : Store) (id content : string) :
  blog (this s) = Some id ->
  In id blogs ->
  assets (specifier_of id) = Some content ->
  init blogs assets s
  = (JS.Normal tt,
     mkStore (mkElement (Some id)
                (JS.join JS.nl (skipn 3 (JS.split JS.LF content)))
                (Some (firstn 3 (JS.split JS.LF content))))
             (imported s ++ [specifier_of id]) (unhandled s)).
Proof.
  intros Hblog Hin Hasset. apply JSFacts.includes_In in Hin.
  run_init. rewrite Hblog, Hin. cbn [negb]. rewrite !Hblog. cbn [interpolate].
  fold (specifier_of id). rewrite Hasset.
  cbn [this blog blogMd headers imported unhandled].
  rewrite Hblog. reflexivity.
Qed.

Lemma init_load_failure (s : Store) (id : string) :
  blog (this s) = Some id ->
  In id blogs ->
  assets (specifier_of id) = None ->
  init blogs assets s
  = (JS.Throw (JS.ModuleNotFound (specifier_of id)),
     mkStore (this s) (imported s ++ [specifier_of id]) (unhandled s)).
Proof.
  intros Hblog Hin Hasset. apply JSFacts.includes_In in Hin.
  run_init. rewrite Hblog, Hin. cbn [negb]. rewrite !Hblog. cbn [interpolate].
  fold (specifier_of id). rewrite Hasset. reflexivity.
Qed.

(** [init] imports a module only for a registered id, and then exactly
    the one named after it. *)
Lemma init_imports (s : Store) :
  imported (snd (init blogs assets s))
  = imported s ++
    (if JS.includes blogs (blog (this s))
     then ["./assets/" ++ interpolate (blog (this s)) ++ ".md"]%string
     else []).
Proof.
  run_init. destruct (JS.includes blogs (blog (this s))); cbn [negb].
  - destruct (assets _); reflexivity.
  - cbn. now rewrite app_nil_r.
Qed.

(** *** The file read back from its parts *)

(** A document of three header lines, a line feed after each, and a
    body: the headers are the three lines and the body is the text
    after the third line feed, unchanged. *)
Lemma resolve_document (id h1 h2 h3 body : string) :
  In id blogs ->
  Segment.free_of JS.LF h1 ->
  Segment.free_of JS.LF h2 ->
  Segment.free_of JS.LF h3 ->
  assets (specifier_of id)
  = Some (h1 ++ JS.nl ++ h2 ++ JS.nl ++ h3 ++ JS.nl ++ body)%string ->
  resolve blogs assets id
  = (JS.Normal tt,
     mkStore (mkElement (Some id) body (Some [h1; h2; h3]))
             [specifier_of id] []).
Proof.
  intros Hin H1 H2 H3 Hasset. unfold resolve.
  rewrite (init_loaded (mounted id) id _ eq_refl Hin Hasset).
  unfold JS.nl. cbn [String.append].
  rewrite !JSFacts.split_app_sep by assumption.
  cbn [firstn skipn]. fold JS.nl.
  change (String JS.LF EmptyString) with JS.nl.
  unfold JS.nl at 1. rewrite JSFacts.join_split. reflexivity.
Qed.

(** *** The claims about [resolve] and [render] *)

(** C2.  For an id that is not in the registry [resolve] returns
    NotFound: the promise of [init] is fulfilled, the body is the empty
    string, and no module was imported.  From any store, [init] for such
    an id leaves the list of imported modules as it was. *)
Theorem resolve_unregistered (id : string) :
  ~ In id blogs ->
  resolve blogs assets id = (JS.Normal tt, mounted id) /\
  blogMd (this (snd (resolve blogs assets id))) = "" /\
  imported (snd (resolve blogs assets id)) = [] /\
  length (imported (snd (resolve blogs assets id))) = 0 /\
  (forall s, blog (this s) = Some id ->
     fst (init blogs assets s) = JS.Normal tt /\
     blogMd (this (snd (init blogs assets s))) = "" /\
     imported (snd (init blogs assets s)) = imported s).
Proof.
  intro Hout. apply JSFacts.includes_not_In in Hout.
  assert (Hres : resolve blogs assets id = (JS.Normal tt, mounted id)).
  { unfold resolve. rewrite init_unregistered by exact Hout. reflexivity. }
  rewrite Hres. repeat (split; [reflexivity|]).
  intros s Hblog. rewrite init_unregistered by (rewrite Hblog; exact Hout).
  repeat split.
Qed.

(** C3.  For a registered id whose document splits on line feeds into
    at least three lines, [resolve] succeeds after importing that one
    document: the headers are exactly the first three lines, and the
    body is all the lines after them rejoined with line feeds.  The
    body is given without [JS.join]: it is the library's [String.concat]
    of the remaining lines, it is empty when no line remains, and
    otherwise the three headers, each followed by a line feed, and then
    the body are the document, character for character. *)
Theorem resolve_well_formed (id content : string) :
  In id blogs ->
  assets (specifier_of id) = Some content ->
  3 <= length (JS.split JS.LF content) ->
  exists h1 h2 h3 rest body,
    JS.split JS.LF content = h1 :: h2 :: h3 :: rest /\
    resolve blogs assets id
    = (JS.Normal tt,
       mkStore (mkElement (Some id) body (Some [h1; h2; h3]))
               [specifier_of id] []) /\
    body = String.concat (String "010" EmptyString) rest /\
    (rest = [] -> body = "") /\
    (rest <> [] ->
     content
     = (h1 ++ String "010" (h2 ++ String "010" (h3 ++ String "010" body)))%string).
Proof.
  intros Hin Hasset Hlen. unfold resolve.
  rewrite (init_loaded (mounted id) id content eq_refl Hin Hasset).
  pose proof (JSFacts.join_split JS.LF content) as Hjoin.
  destruct (JS.split JS.LF content) as [|h1 [|h2 [|h3 rest]]] eqn:Hsplit;
    cbn [length] in Hlen; try lia.
  exists h1, h2, h3, rest, (JS.join JS.nl rest).
  split; [reflexivity|]. split; [reflexivity|].
  split; [apply JSFacts.join_concat|].
  split; [intros ->; reflexivity|].
  intro Hrest. destruct rest as [|l4 rest]; [contradiction|].
  rewrite <- Hjoin. reflexivity.
Qed.

(** C4.  For a registered id whose document has fewer than three lines
    [resolve] raises no error: the headers are the lines there are, and
    the body is the empty string. *)
Theorem resolve_short (id content : string) :
  In id blogs ->
  assets (specifier_of id) = Some content ->
  length (JS.split JS.LF content) < 3 ->
  resolve blogs assets id
  = (JS.Normal tt,
     mkStore (mkElement (Some id) "" (Some (JS.split JS.LF content)))
             [specifier_of id] []).
Proof.
  intros Hin Hasset Hlen. unfold resolve.
  rewrite (init_loaded (mounted id) id content eq_refl Hin Hasset).
  rewrite firstn_all2 by lia. rewrite skipn_all2 by lia. reflexivity.
Qed.

(** C5, amended.  For a registered id whose import fails, the body
    stays the empty string, the headers stay unset, and [render] shows
    the placeholder, as for an id that is not registered.  The failure
    is not turned into NotFound inside the resolver: the promise of
    [init] is rejected with the import error, and [firstUpdated], which
    drops that promise, leaves the rejection unhandled. *)
Theorem resolve_load_failure (id : string) :
  In id blogs ->
  assets (specifier_of id) = None ->
  resolve blogs assets id
  = (JS.Throw (JS.ModuleNotFound (specifier_of id)),
     mkStore (mkElement (Some id) "" None) [specifier_of id] []) /\
  render makeHtml (this (snd (resolve blogs assets id)))
  = html "That page doesn't exist!" /\
  firstUpdated blogs assets (mounted id)
  = (JS.Normal tt,
     mkStore (mkElement (Some id) "" None) [specifier_of id]
             [JS.ModuleNotFound (specifier_of id)]).
Proof.
  intros Hin Hasset.
  pose proof (init_load_failure (mounted id) id eq_refl Hin Hasset) as Hinit.
  unfold resolve, firstUpdated. rewrite Hinit.
  split; [reflexivity|]. split; reflexivity.
Qed.

(** C6.  What [render] returns is a function of the body alone: the
    placeholder when the body is the empty string, as it is from the
    constructor on, and otherwise exactly the converter's output for the
    body, passed through [unsafeHTML]. *)
Theorem render_by_body (e : Element) :
  (blogMd e = "" -> render makeHtml e = html "That page doesn't exist!") /\
  (blogMd e <> "" -> render makeHtml e = unsafeHTML (makeHtml (blogMd e))) /\
  (forall e', blogMd e' = blogMd e -> render makeHtml e' = render makeHtml e) /\
  render makeHtml constructor = html "That page doesn't exist!".
Proof.
  unfold render.
  split; [intros ->; reflexivity|].
  split; [intro Hne; apply String.eqb_neq in Hne; now rewrite Hne|].
  split; [intros e' ->; reflexivity | reflexivity].
Qed.

(** C10.  For a registered id whose document has three lines or fewer
    the body is the empty string, and [render] returns the same
    placeholder as it does for an id that is not registered. *)
Theorem resolve_no_body (id content : string) :
  In id blogs ->
  assets (specifier_of id) = Some content ->
  length (JS.split JS.LF content) <= 3 ->
  fst (resolve blogs assets id) = JS.Normal tt /\
  blogMd (this (snd (resolve blogs assets id))) = "" /\
  render makeHtml (this (snd (resolve blogs assets id)))
  = html "That page doesn't exist!" /\
  (forall id', ~ In id' blogs ->
     render makeHtml (this (snd (resolve blogs assets id')))
     = render makeHtml (this (snd (resolve blogs assets id)))).
Proof.
  intros Hin Hasset Hlen. unfold resolve.
  rewrite (init_loaded (mounted id) id content eq_refl Hin Hasset).
  rewrite skipn_all2 by lia. cbn [fst snd this blogMd JS.join].
  repeat (split; [reflexivity|]).
  intros id' Hout. apply JSFacts.includes_not_In in Hout.
  rewrite init_unregistered by exact Hout. reflexivity.
Qed.

End Collaborators.

(** *** The claims at the small site *)

Lemma resolve_unregistered_witness :
  resolve Fixture.blogs Fixture.assets "../secret" = (JS.Normal tt, mounted "../secret") /\
  imported (snd (resolve Fixture.blogs Fixture.assets "../secret")) = [].
Proof.
  destruct (resolve_unregistered Fixture.blogs Fixture.assets "../secret")
    as (Hres & _ & Himp & _).
  - simpl. intuition discriminate.
  - split; [exact Hres | exact Himp].
Defined.

Lemma resolve_well_formed_witness :
  JS.split JS.LF Notes.doc
  = ["Notes"; "2024-01-05"; "misc"; "# Notes"; ""; "first *point*"; "second"] /\
  resolve Notes.blogs Notes.assets "notes"
  = (JS.Normal tt,
     mkStore (mkElement (Some "notes")
                (String.append "# Notes"
                   (String "010" (String "010"
                      (String.append "first *point*" (String "010" "second")))))
                (Some ["Notes"; "2024-01-05"; "misc"]))
             ["./assets/notes.md"] []).
Proof.
  destruct (resolve_well_formed Notes.blogs Notes.assets "notes" Notes.doc)
    as (h1 & h2 & h3 & rest & body & Hsplit & Hres & Hbody & _ & _).
  - simpl. auto.
  - reflexivity.
  - vm_compute. lia.
  - vm_compute in Hsplit. injection Hsplit as <- <- <- <-.
    vm_compute in Hbody. subst body.
    split; [reflexivity | exact Hres].
Defined.

Lemma resolve_short_witness :
  resolve Fixture.blogs Fixture.assets "c"
  = (JS.Normal tt,
     mkStore (mkElement (Some "c") "" (Some ["title"; "date"]))
             ["./assets/c.md"] []).
Proof.
  apply (resolve_short Fixture.blogs Fixture.assets "c" Fixture.doc_c).
  - simpl. auto.
  - reflexivity.
  - vm_compute. lia.
Defined.

(** C5, as stated, fails: post [b] is registered and has no asset;
    [init] does not end in NotFound but rejects, and the rejection
    reaches the host unhandled. *)
Lemma resolve_load_failure_counterexample :
  In "b" Fixture.blogs /\
  Fixture.assets (specifier_of "b") = None /\
  fst (resolve Fixture.blogs Fixture.assets "b")
  = JS.Throw (JS.ModuleNotFound "./assets/b.md") /\
  fst (resolve Fixture.blogs Fixture.assets "b") <> JS.Normal tt /\
  unhandled (snd (firstUpdated Fixture.blogs Fixture.assets (mounted "b")))
  = [JS.ModuleNotFound "./assets/b.md"].
Proof.
  split; [simpl; auto|].
  split; [reflexivity|].
  split; [reflexivity|].
  split; [discriminate | reflexivity].
Qed.

Lemma resolve_load_failure_witness :
  resolve Fixture.blogs Fixture.assets "b"
  = (JS.Throw (JS.ModuleNotFound "./assets/b.md"),
     mkStore (mkElement (Some "b") "" None) ["./assets/b.md"] []) /\
  render Fixture.makeHtml (this (snd (resolve Fixture.blogs Fixture.assets "b")))
  = html "That page doesn't exist!".
Proof.
  destruct (resolve_load_failure Fixture.blogs Fixture.assets Fixture.makeHtml "b")
    as (Hres & Hrender & _).
  - simpl. auto.
  - reflexivity.
  - split; [exact Hres | exact Hrender].
Defined.

Lemma render_by_body_witness :
  render Fixture.makeHtml (mkElement (Some "a") "" None)
  = html "That page doesn't exist!" /\
  render Fixture.makeHtml (mkElement (Some "a") "Hello **world**" None)
  = unsafeHTML "<p>Hello **world**</p>".
Proof.
  split.
  - apply (proj1 (render_by_body Fixture.makeHtml (mkElement (Some "a") "" None))).
    reflexivity.
  - apply (proj1 (proj2 (render_by_body Fixture.makeHtml
                           (mkElement (Some "a") "Hello **world**" None)))).
    discriminate.
Defined.

Lemma resolve_no_body_witness :
  blogMd (this (snd (resolve Fixture.blogs Fixture.assets "c"))) = "" /\
  render Fixture.makeHtml (this (snd (resolve Fixture.blogs Fixture.assets "zzz")))
  = render Fixture.makeHtml (this (snd (resolve Fixture.blogs Fixture.assets "c"))).
Proof.
  destruct (resolve_no_body Fixture.blogs Fixture.assets Fixture.makeHtml
              "c" Fixture.doc_c) as (_ & Hbody & _ & Hsame).
  - simpl. auto.
  - reflexivity.
  - vm_compute. lia.
  - split; [exact Hbody|]. apply (Hsame "zzz"). simpl. intuition discriminate.
Defined.

(** The scenario of the specification: post [a] resolves to its body. *)
Lemma resolve_a :
  resolve Fixture.blogs Fixture.assets "a"
  = (JS.Normal tt,
     mkStore (mkElement (Some "a") "Hello **world**"
                (Some ["title"; "date"; "tags"]))
             ["./assets/a.md"] []).
Proof. reflexivity. Qed.

End Resolver.

(* ================================================================== *)
(** ** More on lines and segments *)
(* ================================================================== *)

Module TextFacts.
Import Segment.

Lemma append_assoc (x y z : string) :
  ((x ++ y) ++ z)%string = (x ++ (y ++ z))%string.
Proof. induction x as [|c x IH]; simpl; [|rewrite IH]; reflexivity. Qed.

(** No segment of [split] holds the separator. *)
Lemma split_segments_free (sep : ascii) (s : string) :
  Forall (free_of sep) (JS.split sep s).
Proof.
  unfold free_of.
  induction s as [|c s IH]; simpl.
  - constructor; [reflexivity | constructor].
  - destruct (Ascii.eqb c sep) eqn:Ec.
    + constructor; [reflexivity | exact IH].
    + destruct (JS.split sep s) as [|seg segs].
      * constructor; [simpl; now rewrite Ec | constructor].
      * inversion IH as [|? ? Hseg Hsegs]; subst.
        constructor; [simpl; now rewrite Ec | exact Hsegs].
Qed.

(** [split] returns one segment more than there are separators. *)
Lemma length_split (sep : ascii) (s : string) :
  length (JS.split sep s) = S (Text.occurrences sep s).
Proof.
  induction s as [|c s IH]; simpl; [reflexivity|].
  destruct (Ascii.eqb c sep); simpl.
  - now rewrite IH.
  - destruct (JS.split sep s) as [|seg segs]; simpl in *; [discriminate IH | exact IH].
Qed.

Lemma join_cons (sep x : string) (a : list string) :
  a <> [] -> JS.join sep (x :: a) = (x ++ sep ++ JS.join sep a)%string.
Proof. destruct a; [contradiction | reflexivity]. Qed.

(** Joining two non-empty arrays one after the other. *)
Lemma join_app (sep : string) (a b : list string) :
  a <> [] -> b <> [] ->
  JS.join sep (a ++ b) = (JS.join sep a ++ sep ++ JS.join sep b)%string.
Proof.
  intros Ha Hb. induction a as [|x a IH]; [contradiction|].
  destruct a as [|y a].
  - simpl app. now rewrite join_cons.
  - change ((x :: y :: a) ++ b) with (x :: ((y :: a) ++ b)).
    rewrite join_cons by discriminate.
    rewrite IH by discriminate.
    rewrite (join_cons sep x (y :: a)) by discriminate.
    now rewrite !append_assoc.
Qed.

(** Only the empty array and the array of one empty string join to the
    empty string. *)
Lemma join_empty (c : ascii) (a : list string) :
  JS.join (String c EmptyString) a = "" <-> a = [] \/ a = [""].
Proof.
  split.
  - destruct a as [|x [|y a]]; simpl; intro H.
    + now left.
    + right. now rewrite H.
    + destruct x; discriminate H.
  - intros [->| ->]; reflexivity.
Qed.

End TextFacts.

(* ================================================================== *)
(** ** More on the View Router *)
(* ================================================================== *)

Module RouterFacts.
Import MainPage.

(** X1.  The rules of [pages ()] exclude one another: the home page is
    returned at ["/"] and nowhere else, the index at ["/blog"] and
    nowhere else, a post page exactly at the other paths that start with
    ["/blog"], and [undefined] exactly at the paths that are not ["/"]
    and do not start with ["/blog"]. *)
Theorem selectView_rules_exclusive (p : string) :
  (selectView p = JS.Normal (Some home_page) <-> p = "/") /\
  (selectView p = JS.Normal (Some blogs_page) <-> p = "/blog") /\
  ((exists b, selectView p = JS.Normal (Some (blog_page b)))
   <-> JS.startsWith p "/blog" = true /\ p <> "/blog") /\
  (selectView p = JS.Normal None
   <-> p <> "/" /\ JS.startsWith p "/blog" = false).
Proof.
  rewrite Router.selectView_table_eq.
  unfold selectView_table, JS.startsWith.
  destruct (String.eqb_spec p "/") as [->|Hhome];
    [|destruct (String.eqb_spec p "/blog") as [->|Hindex];
      [|destruct (String.prefix "/blog" p) eqn:Hpre]];
    (split; [|split; [|split]]); split; intro H;
    try match type of H with
        | ex _ => destruct H as [b H]
        | _ /\ _ => destruct H as [H H']
        end;
    try discriminate; try congruence; try reflexivity;
    try (split; congruence); try (eexists; reflexivity).
Qed.

(** X2.  The id [pages ()] hands to the post page never holds a slash,
    and the path starts with ["/blog"]: no location makes the router
    pass on an id that names a directory. *)
Theorem post_id_has_no_slash (p id : string) :
  selectView p = JS.Normal (Some (blog_page (Some id))) ->
  Segment.free_of JS.slash id /\
  In id (JS.split JS.slash p) /\
  JS.startsWith p "/blog" = true.
Proof.
  rewrite Router.selectView_table_eq.
  unfold selectView_table, JS.startsWith.
  destruct (p =? "/"); [discriminate|].
  destruct (p =? "/blog"); [discriminate|].
  destruct (String.prefix "/blog" p); [|discriminate].
  intro H. injection H as Hseg.
  change (Segment.nth_segment JS.slash 2 p = Some id) in Hseg.
  rewrite <- JSFacts.index_split in Hseg. unfold JS.index in Hseg.
  apply nth_error_In in Hseg.
  split; [|split; [exact Hseg | reflexivity]].
  pose proof (TextFacts.split_segments_free JS.slash p) as Hfree.
  rewrite Forall_forall in Hfree. exact (Hfree id Hseg).
Qed.

Lemma post_id_has_no_slash_witness :
  Segment.free_of JS.slash "foo" /\
  In "foo" (JS.split JS.slash "/blog/foo/../../etc") /\
  JS.startsWith "/blog/foo/../../etc" "/blog" = true.
Proof.
  apply (post_id_has_no_slash "/blog/foo/../../etc" "foo"). reflexivity.
Defined.

(** X3.  [render ()] of the main page never throws and always builds
    the same heading and the same two navigation links; the page slot
    holds at most one element, and it holds one exactly when the path
    is ["/"] or starts with ["/blog"]. *)
Theorem render_page_slot (w : Window) :
  exists shell,
    fst (render w) = JS.Normal shell /\
    heading shell = "Rom1504's home" /\
    nav shell = [("/", "Home"); ("/blog", "Blog")] /\
    length (slot shell) <= 1 /\
    (slot shell <> [] <->
     location_pathname w = "/" \/
     JS.startsWith (location_pathname w) "/blog" = true).
Proof.
  unfold render, JS.bind. rewrite Router.pages_run.
  rewrite Router.selectView_table_eq. cbn [fst JS.ret].
  eexists. split; [reflexivity|]. split; [reflexivity|]. split; [reflexivity|].
  unfold slot. cbn [page].
  unfold selectView_table, JS.startsWith.
  destruct (String.eqb_spec (location_pathname w) "/") as [->|Hhome].
  { split; [simpl; lia|]. split; [now left | discriminate]. }
  destruct (String.eqb_spec (location_pathname w) "/blog") as [->|Hindex].
  { split; [simpl; lia|]. split; [now right | discriminate]. }
  destruct (String.prefix "/blog" (location_pathname w)).
  - split; [simpl; lia|]. split; [now right | discriminate].
  - split; [simpl; lia|]. split; [intro H; now contradiction H|].
    intros [H|H]; [contradiction | discriminate].
Qed.

End RouterFacts.

(* ================================================================== *)
(** ** More on the Content Resolver *)
(* ================================================================== *)

Module ResolverFacts.
Import BlogPage.

Lemma includes_true_inv (a : list string) (b : option string) :
  JS.includes a b = true -> exists id, b = Some id /\ In id a.
Proof.
  destruct b as [id|]; [|discriminate].
  intro H. exists id. split; [reflexivity | now apply JSFacts.includes_In].
Qed.

Section Collaborators.

Variable blogs : list string.
Variable assets : string -> option string.
Variable makeHtml : string -> string.

(** The guard, the import and the split: every run of [init] is one of
    three. *)
Lemma init_cases (s : Store) :
  (JS.includes blogs (blog (this s)) = false /\
   init blogs assets s
   = (JS.Normal tt,
      mkStore (mkElement (blog (this s)) "" (headers (this s)))
              (imported s) (unhandled s)))
  \/
  (exists id content,
     blog (this s) = Some id /\ In id blogs /\
     assets (specifier_of id) = Some content /\
     init blogs assets s
     = (JS.Normal tt,
        mkStore (mkElement (Some id)
                   (JS.join JS.nl (skipn 3 (JS.split JS.LF content)))
                   (Some (firstn 3 (JS.split JS.LF content))))
                (imported s ++ [specifier_of id]) (unhandled s)))
  \/
  (exists id,
     blog (this s) = Some id /\ In id blogs /\
     assets (specifier_of id) = None /\
     init blogs assets s
     = (JS.Throw (JS.ModuleNotFound (specifier_of id)),
        mkStore (this s) (imported s ++ [specifier_of id]) (unhandled s))).
Proof.
  destruct (JS.includes blogs (blog (this s))) eqn:Hinc.
  - destruct (includes_true_inv _ _ Hinc) as (id & Hblog & Hin).
    destruct (assets (specifier_of id)) as [content|] eqn:Hasset.
    + right; left. exists id, content.
      repeat (split; [assumption|]).
      now apply Resolver.init_loaded.
    + right; right. exists id.
      repeat (split; [assumption|]).
      now apply Resolver.init_load_failure.
  - left. split; [reflexivity|]. now apply Resolver.init_unregistered.
Qed.

(** X4.  Whatever the element holds, [init] calls [import()] at most
    once, and only with the specifier [./assets/<id>.md] of an id that is
    in the registry; it never touches the [blog] property. *)
Theorem init_imports_registered_only (s : Store) :
  exists added,
    imported (snd (init blogs assets s)) = imported s ++ added /\
    length added <= 1 /\
    (forall specifier, In specifier added ->
       exists id, blog (this s) = Some id /\ In id blogs /\
                  specifier = specifier_of id) /\
    blog (this (snd (init blogs assets s))) = blog (this s).
Proof.
  destruct (init_cases s) as [(Hinc & ->)|[(id & content & Hblog & Hin & Hasset & ->)
                                          |(id & Hblog & Hin & Hasset & ->)]];
    cbn [snd imported this blog].
  - exists []. rewrite app_nil_r. repeat split; [simpl; lia|].
    intros specifier [].
  - exists [specifier_of id]. repeat split; [simpl; lia| |now rewrite Hblog].
    intros specifier [<-|[]]. exists id. now repeat split.
  - exists [specifier_of id]. repeat split; [simpl; lia|].
    intros specifier [<-|[]]. exists id. now repeat split.
Qed.

(** X5.  [init] does not cache: a second call settles as the first did
    and leaves the element as the first left it, and it imports the same
    module once more. *)
Theorem init_again (s : Store) :
  exists added,
    imported (snd (init blogs assets s)) = imported s ++ added /\
    imported (snd (init blogs assets (snd (init blogs assets s))))
    = imported s ++ added ++ added /\
    fst (init blogs assets (snd (init blogs assets s)))
    = fst (init blogs assets s) /\
    this (snd (init blogs assets (snd (init blogs assets s))))
    = this (snd (init blogs assets s)).
Proof.
  destruct (init_cases s) as [(Hinc & ->)|[(id & content & Hblog & Hin & Hasset & ->)
                                          |(id & Hblog & Hin & Hasset & ->)]];
    cbn [snd fst].
  - exists []. rewrite Resolver.init_unregistered by exact Hinc.
    cbn [snd fst imported this]. rewrite !app_nil_r. repeat split.
  - exists [specifier_of id].
    rewrite Resolver.init_loaded with (id := id) (content := content)
      by (reflexivity || assumption).
    cbn [snd fst imported this]. rewrite <- app_assoc. repeat split.
  - exists [specifier_of id].
    rewrite Resolver.init_load_failure with (id := id) by assumption.
    cbn [snd fst imported this]. rewrite <- app_assoc. repeat split.
Qed.

(** X6.  [firstUpdated] itself never throws and leaves the element and
    the imports as [init] does; it adds an unhandled rejection exactly
    when the id is registered and its module cannot be imported, and
    none otherwise. *)
Theorem firstUpdated_unhandled (s : Store) :
  fst (firstUpdated blogs assets s) = JS.Normal tt /\
  this (snd (firstUpdated blogs assets s)) = this (snd (init blogs assets s)) /\
  imported (snd (firstUpdated blogs assets s))
  = imported (snd (init blogs assets s)) /\
  unhandled (snd (firstUpdated blogs assets s))
  = unhandled s ++
    (if JS.includes blogs (blog (this s)) then
       match assets ("./assets/" ++ interpolate (blog (this s)) ++ ".md") with
       | Some _ => []
       | None => [JS.ModuleNotFound
                    ("./assets/" ++ interpolate (blog (this s)) ++ ".md")]
       end
     else []).
Proof.
  unfold firstUpdated.
  destruct (init_cases s) as [(Hinc & ->)|[(id & content & Hblog & Hin & Hasset & ->)
                                          |(id & Hblog & Hin & Hasset & ->)]];
    cbn [snd fst this imported unhandled].
  - rewrite Hinc, app_nil_r. repeat split.
  - apply JSFacts.includes_In in Hin. rewrite Hblog, Hin. cbn [interpolate].
    fold (specifier_of id). rewrite Hasset, app_nil_r. repeat split.
  - apply JSFacts.includes_In in Hin. rewrite Hblog, Hin. cbn [interpolate].
    fold (specifier_of id). rewrite Hasset. repeat split.
Qed.

(** X7.  [init] loses no text of a document it loads: with more than
    three lines, the headers joined with line feeds, a line feed and the
    body give the document back; with three lines or fewer the headers
    joined with line feeds are the whole document and the body is
    empty. *)
Theorem init_keeps_text (s : Store) (id content : string) :
  blog (this s) = Some id ->
  In id blogs ->
  assets (specifier_of id) = Some content ->
  exists hdrs,
    headers (this (snd (init blogs assets s))) = Some hdrs /\
    (3 < length (JS.split JS.LF content) ->
     (JS.join JS.nl hdrs ++ JS.nl
      ++ blogMd (this (snd (init blogs assets s))))%string = content) /\
    (length (JS.split JS.LF content) <= 3 ->
     JS.join JS.nl hdrs = content /\
     blogMd (this (snd (init blogs assets s))) = "").
Proof.
  intros Hblog Hin Hasset.
  rewrite (Resolver.init_loaded blogs assets s id content Hblog Hin Hasset).
  cbn [snd this headers blogMd]. eexists. split; [reflexivity|].
  pose proof (JSFacts.join_split JS.LF content) as Hjoin.
  change (String JS.LF EmptyString) with JS.nl in Hjoin.
  split; intro Hlen.
  - rewrite <- TextFacts.join_app.
    + now rewrite firstn_skipn.
    + destruct (JS.split JS.LF content); [simpl in Hlen; lia | discriminate].
    + intro Hnil. apply (f_equal (@length string)) in Hnil.
      rewrite length_skipn in Hnil. simpl in Hnil. lia.
  - rewrite firstn_all2 by lia. rewrite skipn_all2 by lia.
    split; [exact Hjoin | reflexivity].
Qed.

(** X8.  From any state of the element, a document made of three
    header lines, a line feed after each, and a body is taken apart
    into those three headers and that body, whatever the body holds,
    line feeds included. *)
Theorem init_document (s : Store) (id h1 h2 h3 body : string) :
  blog (this s) = Some id ->
  In id blogs ->
  Segment.free_of JS.LF h1 ->
  Segment.free_of JS.LF h2 ->
  Segment.free_of JS.LF h3 ->
  assets (specifier_of id)
  = Some (h1 ++ JS.nl ++ h2 ++ JS.nl ++ h3 ++ JS.nl ++ body)%string ->
  init blogs assets s
  = (JS.Normal tt,
     mkStore (mkElement (Some id) body (Some [h1; h2; h3]))
             (imported s ++ [specifier_of id]) (unhandled s)).
Proof.
  intros Hblog Hin H1 H2 H3 Hasset.
  rewrite (Resolver.init_loaded blogs assets s id _ Hblog Hin Hasset).
  unfold JS.nl. cbn [String.append].
  rewrite !JSFacts.split_app_sep by assumption.
  cbn [firstn skipn]. rewrite JSFacts.join_split. reflexivity.
Qed.

(** X9.  The headers [init] stores for a loaded document are never
    empty: there are [min 3 (n + 1)] of them when the document holds
    [n] line feeds, and none of them holds a line feed. *)
Theorem init_headers_count (s : Store) (id content : string) :
  blog (this s) = Some id ->
  In id blogs ->
  assets (specifier_of id) = Some content ->
  exists hdrs,
    headers (this (snd (init blogs assets s))) = Some hdrs /\
    length hdrs = Nat.min 3 (S (Text.occurrences JS.LF content)) /\
    hdrs <> [] /\
    Forall (Segment.free_of JS.LF) hdrs.
Proof.
  intros Hblog Hin Hasset.
  rewrite (Resolver.init_loaded blogs assets s id content Hblog Hin Hasset).
  cbn [snd this headers]. eexists. split; [reflexivity|].
  split; [now rewrite length_firstn, TextFacts.length_split|].
  split.
  - pose proof (JSFacts.split_not_nil JS.LF content) as Hnil.
    destruct (JS.split JS.LF content); [contradiction | discriminate].
  - pose proof (TextFacts.split_segments_free JS.LF content) as Hfree.
    rewrite <- (firstn_skipn 3 (JS.split JS.LF content)) in Hfree.
    apply Forall_app in Hfree. exact (proj1 Hfree).
Qed.

(** X10.  After [init] has loaded a document, [render] shows the
    placeholder exactly when the document has three lines or fewer, or
    four lines of which the fourth is empty; in every other case it
    shows the converter's output for the lines after the third. *)
Theorem render_loaded (s : Store) (id content : string) :
  blog (this s) = Some id ->
  In id blogs ->
  assets (specifier_of id) = Some content ->
  (render makeHtml (this (snd (init blogs assets s)))
   = html "That page doesn't exist!"
   <-> length (JS.split JS.LF content) <= 3 \/
       (length (JS.split JS.LF content) = 4 /\
        nth_error (JS.split JS.LF content) 3 = Some "")) /\
  (render makeHtml (this (snd (init blogs assets s)))
   = html "That page doesn't exist!" \/
   render makeHtml (this (snd (init blogs assets s)))
   = unsafeHTML
       (makeHtml (JS.join JS.nl (skipn 3 (JS.split JS.LF content))))).
Proof.
  intros Hblog Hin Hasset.
  rewrite (Resolver.init_loaded blogs assets s id content Hblog Hin Hasset).
  cbn [snd this]. unfold render. cbn [blogMd].
  set (body := JS.join JS.nl (skipn 3 (JS.split JS.LF content))).
  assert (Hbody : body = "" <->
            length (JS.split JS.LF content) <= 3 \/
            (length (JS.split JS.LF content) = 4 /\
             nth_error (JS.split JS.LF content) 3 = Some "")).
  { subst body. unfold JS.nl. rewrite TextFacts.join_empty.
    destruct (JS.split JS.LF content) as [|l1 [|l2 [|l3 [|l4 rest]]]];
      cbn [skipn length nth_error].
    1-4: split; [intros _; left; lia | intros _; now left].
    split.
    - intros [H|H]; [discriminate H|]. injection H as -> ->.
      right. split; reflexivity.
    - intros [H|[Hlen Hnth]]; [lia|]. right.
      injection Hnth as ->. destruct rest; [reflexivity | simpl in Hlen; lia]. }
  split.
  - rewrite <- Hbody. destruct (String.eqb_spec body "") as [E|E].
    + split; [intros _; exact E | reflexivity].
    + split; [discriminate | intro; contradiction].
  - destruct (body =? ""); [now left | now right].
Qed.

End Collaborators.

Lemma init_keeps_text_witness :
  exists hdrs,
    headers (this (snd (init Fixture.blogs Fixture.assets (mounted "a"))))
    = Some hdrs /\
    (JS.join JS.nl hdrs ++ JS.nl
     ++ blogMd (this (snd (init Fixture.blogs Fixture.assets (mounted "a")))))%string
    = Fixture.doc_a.
Proof.
  destruct (init_keeps_text Fixture.blogs Fixture.assets (mounted "a") "a"
              Fixture.doc_a) as (hdrs & Hh & Hlong & _).
  - reflexivity.
  - simpl. auto.
  - reflexivity.
  - exists hdrs. split; [exact Hh|]. apply Hlong. vm_compute. lia.
Defined.

Lemma init_document_witness :
  init Samples.blogs Samples.assets (mounted "d")
  = (JS.Normal tt,
     mkStore (mkElement (Some "d") "" (Some ["title"; "date"; "tags"]))
             ["./assets/d.md"] []).
Proof.
  apply (init_document Samples.blogs Samples.assets (mounted "d")
           "d" "title" "date" "tags" "");
    try reflexivity.
  simpl. auto.
Defined.

Lemma init_headers_count_witness :
  exists hdrs,
    headers (this (snd (init Fixture.blogs Fixture.assets (mounted "c"))))
    = Some hdrs /\
    length hdrs = 2 /\ hdrs <> [] /\ Forall (Segment.free_of JS.LF) hdrs.
Proof.
  apply (init_headers_count Fixture.blogs Fixture.assets (mounted "c") "c"
           Fixture.doc_c).
  - reflexivity.
  - simpl. auto.
  - reflexivity.
Defined.

Lemma render_loaded_witness :
  render Fixture.makeHtml
    (this (snd (init Samples.blogs Samples.assets (mounted "d"))))
  = html "That page doesn't exist!".
Proof.
  destruct (render_loaded Samples.blogs Samples.assets Fixture.makeHtml
              (mounted "d") "d" Samples.doc_d) as (Hiff & _).
  - reflexivity.
  - simpl. auto.
  - reflexivity.
  - apply Hiff. right. split; reflexivity.
Defined.

End ResolverFacts.

(* ================================================================== *)
(** ** From the index to the router *)
(* ================================================================== *)

Module SiteFacts.
Import MainPage.

(** Reading up to the first separator gives the whole text exactly when
    the text holds none. *)
Lemma before_all (sep : ascii) (s : string) :
  Segment.before sep s = s <-> Segment.free_of sep s.
Proof.
  unfold Segment.free_of.
  induction s as [|c s IH]; simpl; [split; reflexivity|].
  destruct (Ascii.eqb c sep).
  - split; discriminate.
  - rewrite <- IH. split; [intro H; now injection H | intros ->; reflexivity].
Qed.

(** The router at [/blog/<id>]. *)
Lemma selectView_blog_id (id : string) :
  selectView ("/blog/" ++ id)
  = JS.Normal (Some (blog_page (Some (Segment.before JS.slash id)))).
Proof. rewrite Router.selectView_table_eq. reflexivity. Qed.

(** X11.  Every anchor of the index shows a registered id and points
    to [/blog/<id>]; at that path [pages ()] returns the post page for
    the id cut at its first slash, which is the registered id itself
    exactly when the id holds no slash. *)
Theorem index_link_reaches_post (blogs : list string) (a : BlogsPage.Anchor) :
  In a (BlogsPage.render blogs) ->
  In (BlogsPage.text a) blogs /\
  selectView (BlogsPage.href a)
  = JS.Normal (Some (blog_page
                       (Some (Segment.before JS.slash (BlogsPage.text a))))) /\
  (selectView (BlogsPage.href a)
   = JS.Normal (Some (blog_page (Some (BlogsPage.text a))))
   <-> Segment.free_of JS.slash (BlogsPage.text a)).
Proof.
  unfold BlogsPage.render. rewrite in_map_iff.
  intros (id & <- & Hin). cbn [BlogsPage.text BlogsPage.href].
  rewrite selectView_blog_id.
  split; [exact Hin|]. split; [reflexivity|].
  rewrite <- before_all. split.
  - intro H. now injection H.
  - intros ->. reflexivity.
Qed.

Lemma index_link_reaches_post_witness :
  In "2024/notes" Samples.blogs /\
  selectView "/blog/2024/notes" = JS.Normal (Some (blog_page (Some "2024"))).
Proof.
  destruct (index_link_reaches_post Samples.blogs
              (BlogsPage.mkAnchor "/blog/2024/notes" "2024/notes"))
    as (Hin & Hsel & _).
  - simpl. auto.
  - split; [exact Hin | exact Hsel].
Defined.

(** X12.  When the registry holds no id twice, no two anchors of the
    index point to the same path. *)
Theorem index_links_distinct (blogs : list string) :
  NoDup blogs -> NoDup (map BlogsPage.href (BlogsPage.render blogs)).
Proof.
  unfold BlogsPage.render. rewrite map_map. cbn [BlogsPage.href].
  induction 1 as [|id blogs Hnotin Hnodup IH]; simpl; constructor.
  - rewrite in_map_iff. intros (id' & Heq & Hin).
    injection Heq as ->. contradiction.
  - exact IH.
Qed.

Lemma index_links_distinct_witness :
  NoDup (map BlogsPage.href (BlogsPage.render Fixture.blogs)).
Proof.
  apply (index_links_distinct Fixture.blogs).
  repeat constructor; simpl; intuition discriminate.
Defined.

End SiteFacts.
